(** * aioarangodb.cluster: the request / execute / response-handler pipeline

    A shallow embedding of [aioarangodb/cluster.py].  Every method of the
    [Cluster] API wrapper builds one [Request], defines one
    [response_handler] closure over that request and hands both to
    [self._execute].  The handlers are small Python functions over a decoded
    JSON body; one of them ([health]) mutates the body in place, so handlers
    are modelled in a state-and-exception monad whose state is the response
    object they were given. *)

From Stdlib Require Import ZArith Ascii String List.
From stdpp Require Import gmap strings list fin_maps.

Set Warnings "-register-all".

Open Scope string_scope.

(** ** Python values

    The body of a response is decoded JSON: [None], booleans, integers,
    floats (kept as their binary64 bit pattern; no handler computes with
    one), strings, lists and dictionaries keyed by strings. *)

Inductive PyVal : Type :=
  | PNone
  | PBool (b : bool)
  | PInt (z : Z)
  | PFloat (bits : Z)
  | PStr (s : string)
  | PList (items : list PyVal)
  | PDict (m : gmap string PyVal).

(** ** Requests and responses *)

(** The keyword arguments with which [cluster.py] calls [Request(...)];
    an argument that is not passed keeps its default [None]. *)
Record Request : Type := mkRequest {
  method : string;
  endpoint : string;
  params : option (gmap string PyVal);
  data : option PyVal
}.

(** Modelled from the spec: the [Response] class ([response.py] is not part
    of the sources).  Section 3 gives it a status code, the success flag, the
    decoded body and the raw headers; the handlers read [is_success] and
    [body] only. *)
Record Response : Type := mkResponse {
  status_code : Z;
  is_success : bool;
  body : PyVal;
  headers : gmap string string
}.

Definition set_body (b : PyVal) (resp : Response) : Response :=
  {| status_code := status_code resp;
     is_success := is_success resp;
     body := b;
     headers := headers resp |}.

(** Modelled from the spec: the HTTP verbs of section 3, and the verb a
    [method] string such as ['get'] stands for. *)
Inductive HttpMethod : Type := GET | POST | PUT | DELETE | PATCH | HEAD.

Definition http_method (m : string) : option HttpMethod :=
  if String.eqb m "get" then Some GET
  else if String.eqb m "post" then Some POST
  else if String.eqb m "put" then Some PUT
  else if String.eqb m "delete" then Some DELETE
  else if String.eqb m "patch" then Some PATCH
  else if String.eqb m "head" then Some HEAD
  else None.

(** ** Exceptions *)

(** The exception classes imported from [.exceptions]. *)
Inductive ClusterError : Type :=
  | ClusterEndpointsError
  | ClusterHealthError
  | ClusterMaintenanceModeError
  | ClusterServerEngineError
  | ClusterServerIDError
  | ClusterServerRoleError
  | ClusterServerStatisticsError
  | ClusterServerVersionError.

(** What a handler or an executor can raise: one of the typed errors,
    built as [XError(resp, request)], or one of the interpreter's own
    exceptions. *)
Inductive Exn : Type :=
  | Typed (cls : ClusterError) (resp : Response) (request : Request)
  | KeyError (key : string)
  | TypeError
  | AttributeError
  | TransportError.

Inductive Result (A : Type) : Type :=
  | Return (a : A)
  | Raise (e : Exn).
Arguments Return {A} a.
Arguments Raise {A} e.

(** ** Operations of the interpreter on values *)

(** [v[key]] for a string [key]: only a dictionary can be indexed by a
    string; a missing key is a [KeyError], every other receiver a
    [TypeError]. *)
Definition py_getitem (v : PyVal) (key : string) : Result PyVal :=
  match v with
  | PDict m =>
      match m !! key with
      | Some x => Return x
      | None => Raise (KeyError key)
      end
  | _ => Raise TypeError
  end.

Fixpoint chars (s : string) : list PyVal :=
  match s with
  | EmptyString => []
  | String c s' => PStr (String c EmptyString) :: chars s'
  end.

(** [for item in v]: a list yields its items, a dictionary its keys, a
    string its characters; nothing else is iterable.  The keys come in the
    order of [map_to_list]; the one loop of this file indexes every item by
    a string, which fails alike on every key. *)
Definition py_iter (v : PyVal) : Result (list PyVal) :=
  match v with
  | PList items => Return items
  | PDict m => Return (PStr <$> (map_to_list m).*1)
  | PStr s => Return (chars s)
  | _ => Raise TypeError
  end.

(** [[f(item) for item in items]]: the items are visited in order and the
    first exception ends the comprehension. *)
Fixpoint comprehension (f : PyVal -> Result PyVal) (items : list PyVal)
  : Result (list PyVal) :=
  match items with
  | [] => Return []
  | item :: rest =>
      match f item with
      | Raise e => Raise e
      | Return x =>
          match comprehension f rest with
          | Raise e => Raise e
          | Return xs => Return (x :: xs)
          end
      end
  end.

Definition dquote : ascii := "034"%char.

(** ['"{}"'.format(mode)] for a string [mode]. *)
Definition format_quoted (mode : string) : string :=
  String dquote (mode ++ String dquote EmptyString).

(** ** The handler monad

    A handler runs against the response object it is given, may change it,
    and ends by returning a value or raising. *)

Definition HandlerM (A : Type) : Type := Response -> Result A * Response.

#[global] Instance handler_ret : MRet HandlerM :=
  fun A a resp => (Return a, resp).

#[global] Instance handler_bind : MBind HandlerM :=
  fun A B f m resp =>
    match m resp with
    | (Return a, resp') => f a resp'
    | (Raise e, resp') => (Raise e, resp')
    end.

Definition raise {A} (e : Exn) : HandlerM A :=
  fun resp => (Raise e, resp).

Definition lift_result {A} (r : Result A) : HandlerM A :=
  fun resp => (r, resp).

(** The response object as it is now. *)
Definition get_resp : HandlerM Response :=
  fun resp => (Return resp, resp).

(** [resp.body.pop(key)]: on a dictionary the key is removed in place and
    its value returned, or [KeyError] raised when it is absent; [list.pop]
    refuses a string index; the other values have no [pop] attribute. *)
Definition body_pop (key : string) : HandlerM PyVal :=
  fun resp =>
    match body resp with
    | PDict m =>
        match m !! key with
        | Some x => (Return x, set_body (PDict (delete key m)) resp)
        | None => (Raise (KeyError key), resp)
        end
    | PList _ => (Raise TypeError, resp)
    | _ => (Raise AttributeError, resp)
    end.

Definition Handler : Type := HandlerM PyVal.

(** ** Endpoint methods as programs over the executor

    A method is a coroutine whose only effect is the call
    [self._execute(request, response_handler)]; what the executor gives back
    has some type [R] (a value, a job, a future) that the method does not
    look into. *)

Inductive Prog (R A : Type) : Type :=
  | PRet (a : A)
  | PExec (request : Request) (handler : Handler) (k : R -> Prog R A).
Arguments PRet {R A} a.
Arguments PExec {R A} request handler k.

Fixpoint prog_bind {R A B} (f : A -> Prog R B) (p : Prog R A) : Prog R B :=
  match p with
  | PRet a => f a
  | PExec request handler k => PExec request handler (fun r => prog_bind f (k r))
  end.

#[global] Instance prog_ret {R} : MRet (Prog R) := fun A a => PRet a.
#[global] Instance prog_mbind {R} : MBind (Prog R) := fun A B f p => prog_bind f p.

(** [await self._execute(request, response_handler)] *)
Definition _execute {R} (request : Request) (response_handler : Handler)
  : Prog R R :=
  PExec request response_handler PRet.

(** Running a program against an executor with internal state [S]; every
    [execute] call is recorded, oldest first. *)
Fixpoint run {S R A} (execute : Request -> Handler -> S -> R * S)
    (p : Prog R A) (s : S) (calls : list (Request * Handler))
  : A * S * list (Request * Handler) :=
  match p with
  | PRet a => (a, s, calls)
  | PExec request handler k =>
      let '(r, s') := execute request handler s in
      run execute (k r) s' (calls ++ [(request, handler)])
  end.

(** Modelled from the spec: the immediate executor of section 4.2
    ([executor.py] is not part of the sources).  It sends the request, and
    when the transport produced a response it applies the handler to it once
    and gives back what the handler returned or raised; when the transport
    produced none, the handler is not run. *)
Definition immediate_execute (send : Request -> option Response)
    (request : Request) (handler : Handler) (s : unit)
  : Result PyVal * unit :=
  match send request with
  | Some resp => (fst (handler resp), s)
  | None => (Raise TransportError, s)
  end.

Definition run_immediate {A} (send : Request -> option Response)
    (p : Prog (Result PyVal) A) : A :=
  fst (fst (run (immediate_execute send) p tt [])).

(** ** class Cluster(APIWrapper) *)

Module Cluster.

(** *** server_id *)

Definition server_id_request : Request :=
  {| method := "get";
     endpoint := "/_admin/server/id";
     params := None;
     data := None |}.

Definition server_id_response_handler (request : Request) : Handler :=
  resp ← get_resp;
  if is_success resp
  then lift_result (py_getitem (body resp) "id")
  else raise (Typed ClusterServerIDError resp request).

Definition server_id {R} : Prog R R :=
  let request := server_id_request in
  let response_handler := server_id_response_handler request in
  r ← _execute request response_handler; mret r.

(** *** server_role *)

Definition server_role_request : Request :=
  {| method := "get";
     endpoint := "/_admin/server/role";
     params := None;
     data := None |}.

Definition server_role_response_handler (request : Request) : Handler :=
  resp ← get_resp;
  if is_success resp
  then lift_result (py_getitem (body resp) "role")
  else raise (Typed ClusterServerRoleError resp request).

Definition server_role {R} : Prog R R :=
  let request := server_role_request in
  let response_handler := server_role_response_handler request in
  r ← _execute request response_handler; mret r.

(** *** server_version *)

Definition server_version_request (server_id : string) : Request :=
  {| method := "get";
     endpoint := "/_admin/cluster/nodeVersion";
     params := Some {[ "ServerID" := PStr server_id ]};
     data := None |}.

Definition server_version_response_handler (request : Request) : Handler :=
  resp ← get_resp;
  if is_success resp
  then mret (body resp)
  else raise (Typed ClusterServerVersionError resp request).

Definition server_version {R} (server_id : string) : Prog R R :=
  let request := server_version_request server_id in
  let response_handler := server_version_response_handler request in
  r ← _execute request response_handler; mret r.

(** *** server_engine *)

Definition server_engine_request (server_id : string) : Request :=
  {| method := "get";
     endpoint := "/_admin/cluster/nodeEngine";
     params := Some {[ "ServerID" := PStr server_id ]};
     data := None |}.

Definition server_engine_response_handler (request : Request) : Handler :=
  resp ← get_resp;
  if is_success resp
  then mret (body resp)
  else raise (Typed ClusterServerEngineError resp request).

Definition server_engine {R} (server_id : string) : Prog R R :=
  let request := server_engine_request server_id in
  let response_handler := server_engine_response_handler request in
  r ← _execute request response_handler; mret r.

(** *** server_statistics *)

Definition server_statistics_request (server_id : string) : Request :=
  {| method := "get";
     endpoint := "/_admin/cluster/nodeStatistics";
     params := Some {[ "ServerID" := PStr server_id ]};
     data := None |}.

Definition server_statistics_response_handler (request : Request)
  : Handler :=
  resp ← get_resp;
  if is_success resp
  then mret (body resp)
  else raise (Typed ClusterServerStatisticsError resp request).

Definition server_statistics {R} (server_id : string) : Prog R R :=
  let request := server_statistics_request server_id in
  let response_handler := server_statistics_response_handler request in
  r ← _execute request response_handler; mret r.

(** *** health *)

Definition health_request : Request :=
  {| method := "get";
     endpoint := "/_admin/cluster/health";
     params := None;
     data := None |}.

Definition health_response_handler (request : Request) : Handler :=
  resp ← get_resp;
  if is_success resp
  then
    _ ← body_pop "error";
    _ ← body_pop "code";
    resp' ← get_resp;
    mret (body resp')
  else raise (Typed ClusterHealthError resp request).

Definition health {R} : Prog R R :=
  let request := health_request in
  let response_handler := health_response_handler request in
  r ← _execute request response_handler; mret r.

(** *** toggle_maintenance_mode *)

Definition toggle_maintenance_mode_request (mode : string) : Request :=
  {| method := "put";
     endpoint := "/_admin/cluster/maintenance";
     params := None;
     data := Some (PStr (format_quoted mode)) |}.

Definition toggle_maintenance_mode_response_handler (request : Request)
  : Handler :=
  resp ← get_resp;
  if is_success resp
  then mret (body resp)
  else raise (Typed ClusterMaintenanceModeError resp request).

Definition toggle_maintenance_mode {R} (mode : string) : Prog R R :=
  let request := toggle_maintenance_mode_request mode in
  let response_handler := toggle_maintenance_mode_response_handler request in
  r ← _execute request response_handler; mret r.

(** *** endpoints *)

Definition endpoints_request : Request :=
  {| method := "get";
     endpoint := "/_api/cluster/endpoints";
     params := None;
     data := None |}.

Definition endpoints_response_handler (request : Request) : Handler :=
  resp ← get_resp;
  if negb (is_success resp)
  then raise (Typed ClusterEndpointsError resp request)
  else
    seq ← lift_result (py_getitem (body resp) "endpoints");
    items ← lift_result (py_iter seq);
    out ← lift_result
            (comprehension (fun item => py_getitem item "endpoint") items);
    mret (PList out).

Definition endpoints {R} : Prog R R :=
  let request := endpoints_request in
  let response_handler := endpoints_response_handler request in
  r ← _execute request response_handler; mret r.

End Cluster.

(** ** The eight operations, uniformly *)

Inductive Operation : Type :=
  | ServerId
  | ServerRole
  | ServerVersion (server_id : string)
  | ServerEngine (server_id : string)
  | ServerStatistics (server_id : string)
  | Health
  | ToggleMaintenanceMode (mode : string)
  | Endpoints.

#[global] Instance operation_eq_dec : EqDecision Operation.
Proof. solve_decision. Defined.

Definition invoke {R} (op : Operation) : Prog R R :=
  match op with
  | ServerId => Cluster.server_id
  | ServerRole => Cluster.server_role
  | ServerVersion sid => Cluster.server_version sid
  | ServerEngine sid => Cluster.server_engine sid
  | ServerStatistics sid => Cluster.server_statistics sid
  | Health => Cluster.health
  | ToggleMaintenanceMode mode => Cluster.toggle_maintenance_mode mode
  | Endpoints => Cluster.endpoints
  end.

Definition request_of (op : Operation) : Request :=
  match op with
  | ServerId => Cluster.server_id_request
  | ServerRole => Cluster.server_role_request
  | ServerVersion sid => Cluster.server_version_request sid
  | ServerEngine sid => Cluster.server_engine_request sid
  | ServerStatistics sid => Cluster.server_statistics_request sid
  | Health => Cluster.health_request
  | ToggleMaintenanceMode mode => Cluster.toggle_maintenance_mode_request mode
  | Endpoints => Cluster.endpoints_request
  end.

Definition handler_of (op : Operation) : Handler :=
  match op with
  | ServerId => Cluster.server_id_response_handler (request_of op)
  | ServerRole => Cluster.server_role_response_handler (request_of op)
  | ServerVersion _ => Cluster.server_version_response_handler (request_of op)
  | ServerEngine _ => Cluster.server_engine_response_handler (request_of op)
  | ServerStatistics _ =>
      Cluster.server_statistics_response_handler (request_of op)
  | Health => Cluster.health_response_handler (request_of op)
  | ToggleMaintenanceMode _ =>
      Cluster.toggle_maintenance_mode_response_handler (request_of op)
  | Endpoints => Cluster.endpoints_response_handler (request_of op)
  end.

(** The error class each method raises on a failed response. *)
Definition error_of (op : Operation) : ClusterError :=
  match op with
  | ServerId => ClusterServerIDError
  | ServerRole => ClusterServerRoleError
  | ServerVersion _ => ClusterServerVersionError
  | ServerEngine _ => ClusterServerEngineError
  | ServerStatistics _ => ClusterServerStatisticsError
  | Health => ClusterHealthError
  | ToggleMaintenanceMode _ => ClusterMaintenanceModeError
  | Endpoints => ClusterEndpointsError
  end.

(** ** Predicates on outcomes, and sample responses *)

(** A failed response: the server answered 503. *)
Definition unavailable : Response :=
  {| status_code := 503;
     is_success := false;
     body := PDict {[ "error" := PBool true; "code" := PInt 503 ]};
     headers := ∅ |}.

(** The response object after the handler of [op] has run is the one it
    was given. *)
Definition leaves_response_unchanged (op : Operation) (resp : Response)
  : Prop :=
  snd (handler_of op resp) = resp.

(** The entries of a value when it is a dictionary. *)
Definition body_dict (v : PyVal) : gmap string PyVal :=
  match v with
  | PDict m => m
  | _ => ∅
  end.

(** The success response of the health scenario, with an empty record for
    the node. *)
Definition healthy : Response :=
  {| status_code := 200;
     is_success := true;
     body := PDict {[ "error" := PBool false; "code" := PInt 200;
                      "Node1" := PDict ∅ ]};
     headers := ∅ |}.

(** Two states of a response object that differ at most in [body]. *)
Definition same_but_body (r r' : Response) : Prop :=
  status_code r' = status_code r
  /\ is_success r' = is_success r
  /\ headers r' = headers r.

(** The exceptions the interpreter itself raises when a body is indexed,
    iterated or popped and has not the shape for it. *)
Definition interpreter_exn (e : Exn) : Prop :=
  match e with
  | KeyError _ | TypeError | AttributeError => True
  | Typed _ _ _ | TransportError => False
  end.

(** The operations whose handler looks inside the body. *)
Definition indexes_body (op : Operation) : bool :=
  match op with
  | ServerId | ServerRole | Health | Endpoints => true
  | ServerVersion _ | ServerEngine _ | ServerStatistics _
  | ToggleMaintenanceMode _ => false
  end.

(** The handler of [op] ends on [resp] with a value or with the typed error
    of [op]. *)
Definition returns_or_typed_error (op : Operation) (resp : Response)
  : Prop :=
  (exists v, fst (handler_of op resp) = Return v)
  \/ fst (handler_of op resp)
     = Raise (Typed (error_of op) resp (request_of op)).

(** A success response whose body is the empty mapping. *)
Definition empty_success : Response :=
  {| status_code := 200;
     is_success := true;
     body := PDict ∅;
     headers := ∅ |}.

(** The outcomes the handler of [op] can end with on [resp]: a value or an
    exception of the interpreter on a success response only, the typed
    error on a failed one only. *)
Definition outcome_ok (op : Operation) (resp : Response)
    (r : Result PyVal) : Prop :=
  match r with
  | Return _ => is_success resp = true
  | Raise e =>
      (is_success resp = false
       /\ e = Typed (error_of op) resp (request_of op))
      \/ (is_success resp = true
          /\ indexes_body op = true
          /\ interpreter_exn e)
  end.

(** The requests a program hands to the executor, oldest first. *)
Definition sent_requests {S R A} (execute : Request -> Handler -> S -> R * S)
    (p : Prog R A) (s : S) : list Request :=
  (snd (run execute p s [])).*1.

(** The values the docstring of [toggle_maintenance_mode] allows. *)
Definition allowed_modes : list string := ["on"; "off"].

(** An executor whose transport never answers. *)
Definition offline : Request -> option Response := fun _ => None.

(** The body of a request when it is a string. *)
Definition data_string (request : Request) : option string :=
  match data request with
  | Some (PStr s) => Some s
  | _ => None
  end.

(** The scenario of the specification: the body is [{id: "node-1"}]. *)
Definition node_1 : Response :=
  {| status_code := 200;
     is_success := true;
     body := PDict {[ "id" := PStr "node-1" ]};
     headers := ∅ |}.

(** The scenario of the specification: two coordinators. *)
Definition two_coordinators : Response :=
  {| status_code := 200;
     is_success := true;
     body := PDict {[ "endpoints" :=
               PList [ PDict {[ "endpoint" := PStr "tcp://a:1" ]};
                       PDict {[ "endpoint" := PStr "tcp://b:2" ]} ] ]};
     headers := ∅ |}.

(** A success response of a coordinator to [server_role]. *)
Definition coordinator : Response :=
  {| status_code := 200;
     is_success := true;
     body := PDict {[ "role" := PStr "COORDINATOR" ]};
     headers := ∅ |}.

(** A success response whose body is a list. *)
Definition listing : Response :=
  {| status_code := 200;
     is_success := true;
     body := PList [PStr "CRDN-0001"];
     headers := ∅ |}.

(** A success response with the key ['error'] and without ['code']. *)
Definition uncoded : Response :=
  {| status_code := 200;
     is_success := true;
     body := PDict {[ "error" := PBool false; "Node1" := PDict ∅ ]};
     headers := ∅ |}.

(** A success response to [endpoints] whose second item has no
    ['endpoint'] entry. *)
Definition one_nameless : Response :=
  {| status_code := 200;
     is_success := true;
     body := PDict {[ "endpoints" :=
               PList [ PDict {[ "endpoint" := PStr "tcp://a:1" ]};
                       PDict {[ "address" := PStr "tcp://b:2" ]};
                       PDict {[ "endpoint" := PStr "tcp://c:3" ]} ] ]};
     headers := ∅ |}.

(** A success response to [endpoints] whose ['endpoints'] entry is the
    empty string. *)
Definition blank_endpoints : Response :=
  {| status_code := 200;
     is_success := true;
     body := PDict {[ "endpoints" := PStr "" ]};
     headers := ∅ |}.

Lemma invoke_unfold {R} (op : Operation) :
  @invoke R op = PExec (request_of op) (handler_of op) PRet.
Proof. destruct op; reflexivity. Qed.

(** ** Evaluating handlers *)

Ltac unfold_handlers :=
  cbv beta iota zeta delta
    [handler_of request_of error_of
     Cluster.server_id_response_handler Cluster.server_role_response_handler
     Cluster.server_version_response_handler
     Cluster.server_engine_response_handler
     Cluster.server_statistics_response_handler
     Cluster.health_response_handler
     Cluster.toggle_maintenance_mode_response_handler
     Cluster.endpoints_response_handler
     mbind mret handler_bind handler_ret get_resp raise lift_result negb].

(** ** Failure responses *)

Lemma handler_on_failure (op : Operation) (resp : Response) :
  is_success resp = false ->
  handler_of op resp
  = (Raise (Typed (error_of op) resp (request_of op)), resp).
Proof.
  intros Hf. destruct op; unfold_handlers; rewrite Hf; reflexivity.
Qed.

(** C1: on a response with [is_success == false] the handler of every
    Cluster operation raises that operation's own error class, built from
    that response and the request of the call, and returns no value; the
    response object is left as it was. *)
Theorem failure_raises_typed_error (op : Operation) (resp : Response) :
  is_success resp = false ->
  handler_of op resp = (Raise (Typed (error_of op) resp (request_of op)), resp)
  /\ (forall v, fst (handler_of op resp) <> Return v).
Proof.
  intros Hf. rewrite (handler_on_failure op resp Hf).
  split; [reflexivity | discriminate].
Qed.

Lemma failure_raises_typed_error_witness :
  is_success unavailable = false
  /\ handler_of Health unavailable
     = (Raise (Typed ClusterHealthError unavailable Cluster.health_request),
        unavailable).
Proof.
  split; [reflexivity |].
  apply (failure_raises_typed_error Health unavailable). reflexivity.
Defined.

(** ** One request, one handler, one call *)

(** C9: whatever the executor is (its result type [R], its state [S], its
    behaviour [execute]) and whatever the arguments, a Cluster method is the
    single call [execute request handler] followed by returning its result:
    the call record holds exactly that one entry, the executor's state is
    the one that call left, and the method's result is the executor's. *)
Theorem method_is_one_execute_call
    {S R : Type} (execute : Request -> Handler -> S -> R * S)
    (op : Operation) (s : S) :
  @invoke R op = PExec (request_of op) (handler_of op) PRet
  /\ run execute (invoke op) s []
     = (fst (execute (request_of op) (handler_of op) s),
        snd (execute (request_of op) (handler_of op) s),
        [(request_of op, handler_of op)]).
Proof.
  split; [apply invoke_unfold |].
  rewrite invoke_unfold. cbn [run].
  destruct (execute (request_of op) (handler_of op) s) as [r s'].
  reflexivity.
Qed.

(** Under the immediate executor a method gives what its handler makes of
    the response to its request. *)
Lemma run_immediate_invoke send (op : Operation) (resp : Response) :
  send (request_of op) = Some resp ->
  run_immediate send (invoke op) = fst (handler_of op resp).
Proof.
  intros Hsend. rewrite invoke_unfold.
  unfold run_immediate. cbn [run]. unfold immediate_execute.
  rewrite Hsend. reflexivity.
Qed.

(** ** What a handler does to the response object *)

(** C2, as stated, fails for [health]: after its handler has run on the
    success response [healthy], the body of that response no longer has
    the key ['error']. *)
Lemma health_handler_mutates_body :
  ~ leaves_response_unchanged Health healthy.
Proof.
  unfold leaves_response_unchanged. intros E.
  apply (f_equal (fun r => body_dict (body r) !! "error")) in E.
  vm_compute in E. discriminate E.
Qed.

Lemma same_but_body_refl r : same_but_body r r.
Proof. done. Qed.

Lemma same_but_body_trans r1 r2 r3 :
  same_but_body r1 r2 -> same_but_body r2 r3 -> same_but_body r1 r3.
Proof.
  unfold same_but_body. intros (-> & -> & ->) (-> & -> & ->). done.
Qed.

Lemma body_pop_frame key resp :
  same_but_body resp (snd (body_pop key resp)).
Proof.
  unfold body_pop.
  destruct (body resp) as [| | | | | |m]; try apply same_but_body_refl.
  destruct (m !! key); done.
Qed.

Lemma health_frame request resp :
  same_but_body resp (snd (Cluster.health_response_handler request resp)).
Proof.
  unfold_handlers.
  destruct (is_success resp); [| apply same_but_body_refl].
  pose proof (body_pop_frame "error" resp) as H1.
  destruct (body_pop "error" resp) as [[x|e] r1]; [| exact H1].
  pose proof (body_pop_frame "code" r1) as H2.
  destruct (body_pop "code" r1) as [[y|e] r2];
    exact (same_but_body_trans _ _ _ H1 H2).
Qed.

Lemma health_success request resp m x y :
  is_success resp = true ->
  body resp = PDict m ->
  m !! "error" = Some x ->
  m !! "code" = Some y ->
  Cluster.health_response_handler request resp
  = (Return (PDict (delete "code" (delete "error" m))),
     set_body (PDict (delete "code" (delete "error" m))) resp).
Proof.
  intros Hs Hb Hx Hy. unfold_handlers. rewrite Hs.
  unfold body_pop. rewrite Hb, Hx. cbn [body set_body].
  rewrite lookup_delete_ne, Hy by done. reflexivity.
Qed.

Lemma non_health_frame (op : Operation) (resp : Response) :
  op <> Health -> snd (handler_of op resp) = resp.
Proof.
  intros Hop. destruct op; try done; unfold_handlers;
    destruct (is_success resp); try reflexivity.
  destruct (py_getitem (body resp) "endpoints") as [seq|]; [| reflexivity].
  destruct (py_iter seq) as [items|]; [| reflexivity].
  destruct (comprehension _ items); reflexivity.
Qed.

(** C2, amended: the handlers of all operations but [health] leave the
    response exactly as it was, for every response; the [health] handler
    leaves it as it was when [is_success] is false, never changes a field
    other than [body], and on a success response whose body is a mapping
    with the keys ['error'] and ['code'] it removes these two keys from the
    body in place. *)
Theorem handler_frame (op : Operation) (resp : Response) :
  (op <> Health \/ is_success resp = false ->
   snd (handler_of op resp) = resp)
  /\ same_but_body resp (snd (handler_of op resp))
  /\ (forall m,
        op = Health ->
        is_success resp = true ->
        body resp = PDict m ->
        is_Some (m !! "error") ->
        is_Some (m !! "code") ->
        body (snd (handler_of op resp))
        = PDict (delete "code" (delete "error" m))).
Proof.
  split; [| split].
  - intros [Hop | Hf].
    + apply non_health_frame, Hop.
    + rewrite (handler_on_failure op resp Hf). reflexivity.
  - destruct (decide (op = Health)) as [-> | Hop].
    + apply health_frame.
    + rewrite (non_health_frame op resp Hop). apply same_but_body_refl.
  - intros m -> Hs Hb [x Hx] [y Hy].
    change (handler_of Health)
      with (Cluster.health_response_handler Cluster.health_request).
    rewrite (health_success _ resp m x y Hs Hb Hx Hy). reflexivity.
Qed.

Lemma handler_frame_witness :
  snd (handler_of ServerId healthy) = healthy
  /\ body (snd (handler_of Health healthy))
     = PDict (delete "code" (delete "error" (body_dict (body healthy)))).
Proof.
  split.
  - apply (handler_frame ServerId healthy). left. discriminate.
  - apply (handler_frame Health healthy); try reflexivity;
      eexists; reflexivity.
Defined.

(** ** The outcomes of a handler *)

(** C3, as stated, fails: on a success response whose body has no key
    ['id'] the handler of [server_id] raises [KeyError], which is neither a
    value nor [ClusterServerIDError]. *)
Lemma server_id_missing_key :
  fst (handler_of ServerId empty_success) = Raise (KeyError "id")
  /\ ~ returns_or_typed_error ServerId empty_success.
Proof.
  assert (fst (handler_of ServerId empty_success) = Raise (KeyError "id"))
    as E by reflexivity.
  split; [exact E |].
  unfold returns_or_typed_error. rewrite E.
  intros [[v Hv] | Ht]; discriminate.
Qed.

Lemma py_getitem_exn v key e :
  py_getitem v key = Raise e -> interpreter_exn e.
Proof.
  destruct v as [| | | | | |m]; cbn; try (intros [= <-]; exact I).
  destruct (m !! key); intros [= <-]. exact I.
Qed.

Lemma py_iter_exn v e : py_iter v = Raise e -> interpreter_exn e.
Proof. destruct v; cbn; intros [= <-]; exact I. Qed.

Lemma comprehension_exn f items e :
  (forall item e', f item = Raise e' -> interpreter_exn e') ->
  comprehension f items = Raise e -> interpreter_exn e.
Proof.
  intros Hf. induction items as [|item rest IH]; cbn; [discriminate |].
  destruct (f item) as [x|e'] eqn:Hitem.
  - destruct (comprehension f rest) as [xs|e'']; [discriminate |].
    intros [= <-]. apply IH. reflexivity.
  - intros [= <-]. apply (Hf item), Hitem.
Qed.

Lemma body_pop_exn key resp e :
  fst (body_pop key resp) = Raise e -> interpreter_exn e.
Proof.
  unfold body_pop.
  destruct (body resp) as [| | | | | |m]; cbn; try (intros [= <-]; exact I).
  destruct (m !! key); cbn; intros [= <-]. exact I.
Qed.

Lemma getitem_outcome_ok op resp key :
  is_success resp = true ->
  indexes_body op = true ->
  outcome_ok op resp (py_getitem (body resp) key).
Proof.
  intros Hs Hop. unfold outcome_ok.
  destruct (py_getitem (body resp) key) as [x|e] eqn:E; [exact Hs |].
  right. eauto using py_getitem_exn.
Qed.

Lemma health_outcome_ok request resp :
  is_success resp = true ->
  outcome_ok Health resp
    (fst (Cluster.health_response_handler request resp)).
Proof.
  intros Hs. unfold_handlers. rewrite Hs.
  destruct (body_pop "error" resp) as [[x|e] r1] eqn:E1.
  - destruct (body_pop "code" r1) as [[y|e] r2] eqn:E2; cbn; [exact Hs |].
    right. repeat split; [exact Hs |].
    apply (body_pop_exn "code" r1). rewrite E2. reflexivity.
  - cbn. right. repeat split; [exact Hs |].
    apply (body_pop_exn "error" resp). rewrite E1. reflexivity.
Qed.

Lemma endpoints_outcome_ok request resp :
  is_success resp = true ->
  outcome_ok Endpoints resp
    (fst (Cluster.endpoints_response_handler request resp)).
Proof.
  intros Hs. unfold_handlers. rewrite Hs.
  destruct (py_getitem (body resp) "endpoints") as [seq|e] eqn:E1.
  - destruct (py_iter seq) as [items|e] eqn:E2.
    + destruct (comprehension _ items) as [out|e] eqn:E3; cbn;
        [exact Hs |].
      right. repeat split; [exact Hs |].
      apply (comprehension_exn _ items e) in E3; [exact E3 |].
      intros item e'. apply py_getitem_exn.
    + cbn. right. eauto using py_iter_exn.
  - cbn. right. eauto using py_getitem_exn.
Qed.

(** C3, amended: for every response the handler of every Cluster operation
    ends in exactly one outcome, and that outcome is a value only on a
    success response, the operation's typed error exactly on a failed one,
    or, on a success response and only for the four handlers that look into
    the body ([server_id], [server_role], [health], [endpoints]), a
    [KeyError], [TypeError] or [AttributeError] of the interpreter; the
    other four handlers return the body of every success response. *)
Theorem handler_outcome (op : Operation) (resp : Response) :
  outcome_ok op resp (fst (handler_of op resp))
  /\ (indexes_body op = false ->
      is_success resp = true ->
      fst (handler_of op resp) = Return (body resp)).
Proof.
  destruct (is_success resp) eqn:Hs.
  - split.
    + destruct op;
        try (unfold_handlers; rewrite Hs; exact Hs).
      * unfold_handlers. rewrite Hs. cbn [fst].
        apply (getitem_outcome_ok ServerId); [exact Hs | reflexivity].
      * unfold_handlers. rewrite Hs. cbn [fst].
        apply (getitem_outcome_ok ServerRole); [exact Hs | reflexivity].
      * apply health_outcome_ok, Hs.
      * apply endpoints_outcome_ok, Hs.
    + intros Hop _.
      destruct op; try discriminate Hop;
        unfold_handlers; rewrite Hs; reflexivity.
  - split.
    + rewrite (handler_on_failure op resp Hs). cbn.
      left. split; [exact Hs | reflexivity].
    + intros _ Habs. discriminate Habs.
Qed.

Lemma handler_outcome_witness :
  indexes_body (ServerVersion "PRMR-0001") = false
  /\ is_success healthy = true
  /\ fst (handler_of (ServerVersion "PRMR-0001") healthy)
     = Return (body healthy).
Proof.
  split; [reflexivity |]. split; [reflexivity |].
  apply (handler_outcome (ServerVersion "PRMR-0001") healthy); reflexivity.
Defined.

(** ** Requests *)

Lemma sent_requests_invoke {S R} (execute : Request -> Handler -> S -> R * S)
    (op : Operation) (s : S) :
  sent_requests execute (invoke op) s = [request_of op].
Proof.
  unfold sent_requests. rewrite invoke_unfold. cbn [run].
  destruct (execute (request_of op) (handler_of op) s). reflexivity.
Qed.

(** C4, as stated, fails: the mode ["maybe"] is not an allowed value, and
    the call is not rejected; its request goes to the executor with the
    mode inside the body. *)
Lemma toggle_sends_unlisted_mode :
  ("maybe" ∉ allowed_modes)
  /\ sent_requests (immediate_execute offline)
       (Cluster.toggle_maintenance_mode "maybe") tt
     = [ {| method := "put";
            endpoint := "/_admin/cluster/maintenance";
            params := None;
            data := Some (PStr (String dquote ("maybe" ++
                                   String dquote EmptyString))) |} ].
Proof.
  split; [| reflexivity].
  unfold allowed_modes. intros Hin.
  repeat (apply elem_of_cons in Hin as [Hin | Hin]; [discriminate Hin |]).
  apply elem_of_nil in Hin. exact Hin.
Qed.

(** C4, amended: [toggle_maintenance_mode] does not check its argument.
    For every string [mode], allowed or not, it builds the PUT request to
    ['/_admin/cluster/maintenance'] whose body is the mode between double
    quotes, and hands exactly that request to the executor. *)
Theorem toggle_sends_any_mode
    {S R : Type} (execute : Request -> Handler -> S -> R * S)
    (mode : string) (s : S) :
  sent_requests execute (Cluster.toggle_maintenance_mode mode) s
  = [ {| method := "put";
         endpoint := "/_admin/cluster/maintenance";
         params := None;
         data := Some (PStr (String dquote (mode ++
                                String dquote EmptyString))) |} ].
Proof.
  exact (sent_requests_invoke execute (ToggleMaintenanceMode mode) s).
Qed.

(** C6, as stated, fails in its count: the body of the request for mode
    ["on"] has four characters, not five. *)
Lemma toggle_on_body_is_not_five_characters :
  ~ (exists s,
       data_string (Cluster.toggle_maintenance_mode_request "on") = Some s
       /\ String.length s = 5).
Proof.
  intros (s & Hs & Hlen). cbn in Hs. injection Hs as <-.
  cbn in Hlen. discriminate Hlen.
Qed.

(** C6, amended: [toggle_maintenance_mode("on")] hands the executor exactly
    one request, with method PUT, endpoint ['/_admin/cluster/maintenance']
    and as body the four characters double quote, [o], [n], double quote;
    on a failed response its handler raises [ClusterMaintenanceModeError]
    with that response and that request. *)
Theorem toggle_on
    {S R : Type} (execute : Request -> Handler -> S -> R * S) (s : S)
    (resp : Response) :
  let request :=
    {| method := "put";
       endpoint := "/_admin/cluster/maintenance";
       params := None;
       data := Some (PStr (String dquote (String "o" (String "n"
                             (String dquote EmptyString))))) |} in
  sent_requests execute (Cluster.toggle_maintenance_mode "on") s = [request]
  /\ http_method (method request) = Some PUT
  /\ (String.length <$> data_string request) = Some 4
  /\ (is_success resp = false ->
      handler_of (ToggleMaintenanceMode "on") resp
      = (Raise (Typed ClusterMaintenanceModeError resp request), resp)).
Proof.
  intros request. repeat split.
  - exact (sent_requests_invoke execute (ToggleMaintenanceMode "on") s).
  - intros Hf.
    exact (handler_on_failure (ToggleMaintenanceMode "on") resp Hf).
Qed.

Lemma toggle_on_witness :
  is_success unavailable = false
  /\ fst (handler_of (ToggleMaintenanceMode "on") unavailable)
     = Raise (Typed ClusterMaintenanceModeError unavailable
                (Cluster.toggle_maintenance_mode_request "on")).
Proof.
  split; [reflexivity |].
  pose proof (toggle_on (immediate_execute offline) tt unavailable) as H.
  cbv zeta in H. destruct H as (_ & _ & _ & H).
  rewrite (H eq_refl). reflexivity.
Defined.

(** C10: for every string [s], [server_version(s)], [server_engine(s)] and
    [server_statistics(s)] each hand the executor one GET request, to
    ['/_admin/cluster/nodeVersion'], ['/_admin/cluster/nodeEngine'] and
    ['/_admin/cluster/nodeStatistics'], whose [params] hold the single entry
    ['ServerID'] bound to [s] as it was passed; on every success response
    their handlers return the whole body as it is and leave the response
    alone. *)
Theorem node_queries
    {S R : Type} (execute : Request -> Handler -> S -> R * S) (st : S)
    (s : string) (resp : Response) :
  let query path :=
    {| method := "get";
       endpoint := path;
       params := Some {[ "ServerID" := PStr s ]};
       data := None |} in
  (sent_requests execute (Cluster.server_version s) st
     = [query "/_admin/cluster/nodeVersion"]
   /\ sent_requests execute (Cluster.server_engine s) st
      = [query "/_admin/cluster/nodeEngine"]
   /\ sent_requests execute (Cluster.server_statistics s) st
      = [query "/_admin/cluster/nodeStatistics"])
  /\ (forall path,
        http_method (method (query path)) = Some GET
        /\ (map_to_list <$> params (query path))
           = Some [("ServerID", PStr s)])
  /\ (is_success resp = true ->
      handler_of (ServerVersion s) resp = (Return (body resp), resp)
      /\ handler_of (ServerEngine s) resp = (Return (body resp), resp)
      /\ handler_of (ServerStatistics s) resp = (Return (body resp), resp)).
Proof.
  intros query. split; [| split].
  - repeat split.
    + exact (sent_requests_invoke execute (ServerVersion s) st).
    + exact (sent_requests_invoke execute (ServerEngine s) st).
    + exact (sent_requests_invoke execute (ServerStatistics s) st).
  - intros path. split; [reflexivity |].
    cbn [params query fmap option_fmap option_map].
    rewrite map_to_list_singleton. reflexivity.
  - intros Hs. repeat split; unfold_handlers; rewrite Hs; reflexivity.
Qed.

Lemma node_queries_witness :
  is_success healthy = true
  /\ handler_of (ServerEngine "PRMR-0001") healthy
     = (Return (body healthy), healthy).
Proof.
  split; [reflexivity |].
  pose proof (node_queries (immediate_execute offline) tt
                "PRMR-0001" healthy) as H.
  cbv zeta in H. destruct H as (_ & _ & H).
  destruct (H eq_refl) as (_ & H2 & _). exact H2.
Defined.

(** ** Success responses *)

(** C8: on a success response whose body maps ['id'] to a string,
    [server_id()] returns that string: its handler returns it and leaves the
    response alone, and so does the method under the immediate executor. *)
Theorem server_id_returns_id
    (send : Request -> option Response) (resp : Response)
    (m : gmap string PyVal) (s : string) :
  is_success resp = true ->
  body resp = PDict m ->
  m !! "id" = Some (PStr s) ->
  handler_of ServerId resp = (Return (PStr s), resp)
  /\ (send Cluster.server_id_request = Some resp ->
      run_immediate send Cluster.server_id = Return (PStr s)).
Proof.
  intros Hs Hb Hid.
  assert (handler_of ServerId resp = (Return (PStr s), resp)) as E.
  { unfold_handlers. rewrite Hs. unfold py_getitem. rewrite Hb, Hid.
    reflexivity. }
  split; [exact E |].
  intros Hsend.
  change (Return (PStr s)) with (fst (Return (PStr s), resp)).
  rewrite <- E. exact (run_immediate_invoke send ServerId resp Hsend).
Qed.

Lemma server_id_returns_id_witness :
  run_immediate (fun _ => Some node_1) Cluster.server_id
  = Return (PStr "node-1").
Proof.
  apply (server_id_returns_id (fun _ => Some node_1) node_1
           {[ "id" := PStr "node-1" ]} "node-1");
    reflexivity.
Defined.

Lemma comprehension_endpoint items eps :
  Forall2 (fun (item : gmap string PyVal) ep => item !! "endpoint" = Some ep)
    items eps ->
  comprehension (fun item => py_getitem item "endpoint") (PDict <$> items)
  = Return eps.
Proof.
  induction 1 as [|item ep items eps Hep _ IH]; [reflexivity |].
  cbn [fmap list_fmap comprehension py_getitem].
  rewrite Hep.
  change (list_fmap _ _ PDict items) with (PDict <$> items).
  rewrite IH. reflexivity.
Qed.

(** C7: on a success response whose body maps ['endpoints'] to a list of
    mappings that each have the key ['endpoint'], [endpoints()] returns the
    list of the values under ['endpoint'], one per mapping and in the order
    of the mappings. *)
Theorem endpoints_returns_endpoint_list
    (send : Request -> option Response) (resp : Response)
    (m : gmap string PyVal) (items : list (gmap string PyVal))
    (eps : list PyVal) :
  is_success resp = true ->
  body resp = PDict m ->
  m !! "endpoints" = Some (PList (PDict <$> items)) ->
  Forall2 (fun item ep => item !! "endpoint" = Some ep) items eps ->
  handler_of Endpoints resp = (Return (PList eps), resp)
  /\ (send Cluster.endpoints_request = Some resp ->
      run_immediate send Cluster.endpoints = Return (PList eps)).
Proof.
  intros Hs Hb Hm Heps.
  assert (handler_of Endpoints resp = (Return (PList eps), resp)) as E.
  { unfold_handlers. rewrite Hs.
    unfold py_getitem at 1. rewrite Hb, Hm. cbn [py_iter].
    rewrite (comprehension_endpoint items eps Heps). reflexivity. }
  split; [exact E |].
  intros Hsend.
  change (Return (PList eps)) with (fst (Return (PList eps), resp)).
  rewrite <- E. exact (run_immediate_invoke send Endpoints resp Hsend).
Qed.

Lemma endpoints_returns_endpoint_list_witness :
  run_immediate (fun _ => Some two_coordinators) Cluster.endpoints
  = Return (PList [PStr "tcp://a:1"; PStr "tcp://b:2"]).
Proof.
  apply (endpoints_returns_endpoint_list
           (fun _ => Some two_coordinators) two_coordinators
           (body_dict (body two_coordinators))
           [ {[ "endpoint" := PStr "tcp://a:1" ]};
             {[ "endpoint" := PStr "tcp://b:2" ]} ]
           [PStr "tcp://a:1"; PStr "tcp://b:2"]);
    try reflexivity.
  repeat constructor.
Defined.

Lemma health_strips m (node : PyVal) :
  m = {[ "error" := PBool false; "code" := PInt 200; "Node1" := node ]} ->
  delete "code" (delete "error" m) = ({[ "Node1" := node ]} : gmap string PyVal).
Proof.
  intros ->. apply map_eq. intros k.
  destruct (decide (k = "error")) as [-> | Herr]; [reflexivity |].
  destruct (decide (k = "code")) as [-> | Hcode]; [reflexivity |].
  rewrite !lookup_delete_ne, !lookup_insert_ne by done. reflexivity.
Qed.

(** C5: on a success response whose body is the mapping
    [{error: false, code: 200, Node1: node}], [health()] returns the mapping
    [{Node1: node}]; and on every success response whose body is a mapping
    with the keys ['error'] and ['code'] it returns that mapping with
    these two keys removed and every other key bound as before. *)
Theorem health_returns_body_without_bookkeeping
    (send : Request -> option Response) (resp : Response)
    (m : gmap string PyVal) (node : PyVal) :
  is_success resp = true ->
  body resp = PDict m ->
  (m = {[ "error" := PBool false; "code" := PInt 200; "Node1" := node ]} ->
   fst (handler_of Health resp) = Return (PDict {[ "Node1" := node ]})
   /\ (send Cluster.health_request = Some resp ->
       run_immediate send Cluster.health
       = Return (PDict {[ "Node1" := node ]})))
  /\ (is_Some (m !! "error") ->
      is_Some (m !! "code") ->
      exists m',
        fst (handler_of Health resp) = Return (PDict m')
        /\ m' !! "error" = None
        /\ m' !! "code" = None
        /\ (forall k, k <> "error" -> k <> "code" -> m' !! k = m !! k)).
Proof.
  intros Hs Hb.
  assert (forall x y, m !! "error" = Some x -> m !! "code" = Some y ->
          fst (handler_of Health resp)
          = Return (PDict (delete "code" (delete "error" m)))) as E.
  { intros x y Hx Hy.
    change (handler_of Health)
      with (Cluster.health_response_handler Cluster.health_request).
    rewrite (health_success _ resp m x y Hs Hb Hx Hy). reflexivity. }
  split.
  - intros Hm.
    assert (fst (handler_of Health resp)
            = Return (PDict {[ "Node1" := node ]})) as E'.
    { rewrite (E (PBool false) (PInt 200)) by (rewrite Hm; reflexivity).
      rewrite (health_strips m node Hm). reflexivity. }
    split; [exact E' |].
    intros Hsend. rewrite <- E'.
    exact (run_immediate_invoke send Health resp Hsend).
  - intros [x Hx] [y Hy]. exists (delete "code" (delete "error" m)).
    split; [exact (E x y Hx Hy) |].
    split; [| split].
    + rewrite lookup_delete_ne by done. apply lookup_delete_eq.
    + apply lookup_delete_eq.
    + intros k Herr Hcode. rewrite !lookup_delete_ne by done. reflexivity.
Qed.

Lemma health_returns_body_without_bookkeeping_witness :
  run_immediate (fun _ => Some healthy) Cluster.health
  = Return (PDict {[ "Node1" := PDict ∅ ]}).
Proof.
  apply (health_returns_body_without_bookkeeping
           (fun _ => Some healthy) healthy
           (body_dict (body healthy)) (PDict ∅));
    reflexivity.
Defined.


(** * Further properties of the handlers and requests *)

(** ** server_id and server_role *)

(** X1: on a success response whose body maps ['role'] to a value,
    [server_role()] returns that value, whatever its type, and leaves the
    response alone. *)
Theorem server_role_returns_role
    (send : Request -> option Response) (resp : Response)
    (m : gmap string PyVal) (v : PyVal) :
  is_success resp = true ->
  body resp = PDict m ->
  m !! "role" = Some v ->
  handler_of ServerRole resp = (Return v, resp)
  /\ (send Cluster.server_role_request = Some resp ->
      run_immediate send Cluster.server_role = Return v).
Proof.
  intros Hs Hb Hrole.
  assert (handler_of ServerRole resp = (Return v, resp)) as E.
  { unfold_handlers. rewrite Hs. unfold py_getitem. rewrite Hb, Hrole.
    reflexivity. }
  split; [exact E |].
  intros Hsend.
  change (Return v) with (fst (Return v, resp)).
  rewrite <- E. exact (run_immediate_invoke send ServerRole resp Hsend).
Qed.

Lemma server_role_returns_role_witness :
  run_immediate (fun _ => Some coordinator) Cluster.server_role
  = Return (PStr "COORDINATOR").
Proof.
  apply (server_role_returns_role (fun _ => Some coordinator) coordinator
           {[ "role" := PStr "COORDINATOR" ]} (PStr "COORDINATOR"));
    reflexivity.
Defined.

(** X2: on a success response whose body is a mapping without the key
    they read, the handlers of [server_id] and [server_role] raise
    [KeyError] for that key (not their typed error) and leave the response
    alone. *)
Theorem id_and_role_missing_key (resp : Response) (m : gmap string PyVal) :
  is_success resp = true ->
  body resp = PDict m ->
  (m !! "id" = None ->
   handler_of ServerId resp = (Raise (KeyError "id"), resp))
  /\ (m !! "role" = None ->
      handler_of ServerRole resp = (Raise (KeyError "role"), resp)).
Proof.
  intros Hs Hb.
  split; intros Hk; unfold_handlers; rewrite Hs; unfold py_getitem;
    rewrite Hb, Hk; reflexivity.
Qed.

Lemma id_and_role_missing_key_witness :
  handler_of ServerId coordinator = (Raise (KeyError "id"), coordinator)
  /\ handler_of ServerRole node_1 = (Raise (KeyError "role"), node_1).
Proof.
  split.
  - apply (id_and_role_missing_key coordinator
             {[ "role" := PStr "COORDINATOR" ]}); reflexivity.
  - apply (id_and_role_missing_key node_1 {[ "id" := PStr "node-1" ]});
      reflexivity.
Defined.

(** X3: on a success response whose body is not a mapping (a list, a
    string, a number, [None]) the handlers of [server_id] and
    [server_role] raise [TypeError] and leave the response alone. *)
Theorem id_and_role_body_not_mapping (resp : Response) :
  is_success resp = true ->
  (forall m, body resp <> PDict m) ->
  handler_of ServerId resp = (Raise TypeError, resp)
  /\ handler_of ServerRole resp = (Raise TypeError, resp).
Proof.
  intros Hs Hb.
  split; unfold_handlers; rewrite Hs; unfold py_getitem;
    destruct (body resp) as [| | | | | |m]; try reflexivity;
    destruct (Hb m eq_refl).
Qed.

Lemma id_and_role_body_not_mapping_witness :
  handler_of ServerId listing = (Raise TypeError, listing)
  /\ handler_of ServerRole listing = (Raise TypeError, listing).
Proof.
  apply (id_and_role_body_not_mapping listing); [reflexivity |].
  intros m Hm. discriminate Hm.
Defined.

(** ** health *)

(** X4: on a success response whose body is a mapping without ['error'],
    the handler of [health] raises [KeyError] for ['error'] and leaves the
    response alone; a ['code'] entry, if there is one, stays in the body. *)
Theorem health_missing_error (resp : Response) (m : gmap string PyVal) :
  is_success resp = true ->
  body resp = PDict m ->
  m !! "error" = None ->
  handler_of Health resp = (Raise (KeyError "error"), resp).
Proof.
  intros Hs Hb Herr. unfold_handlers. rewrite Hs.
  unfold body_pop. rewrite Hb, Herr. reflexivity.
Qed.

Lemma health_missing_error_witness :
  handler_of Health node_1 = (Raise (KeyError "error"), node_1).
Proof.
  apply (health_missing_error node_1 {[ "id" := PStr "node-1" ]});
    reflexivity.
Defined.

(** X5: on a success response whose body is a mapping with ['error'] and
    without ['code'], the handler of [health] raises [KeyError] for
    ['code'] after it has removed ['error']: the exception leaves the body
    of the response without its ['error'] entry, all other entries as they
    were. *)
Theorem health_missing_code
    (resp : Response) (m : gmap string PyVal) (x : PyVal) :
  is_success resp = true ->
  body resp = PDict m ->
  m !! "error" = Some x ->
  m !! "code" = None ->
  handler_of Health resp
  = (Raise (KeyError "code"), set_body (PDict (delete "error" m)) resp)
  /\ snd (handler_of Health resp) <> resp.
Proof.
  intros Hs Hb Herr Hcode.
  assert (handler_of Health resp
          = (Raise (KeyError "code"),
             set_body (PDict (delete "error" m)) resp)) as E.
  { unfold_handlers. rewrite Hs.
    unfold body_pop. rewrite Hb, Herr. cbn [body set_body].
    rewrite lookup_delete_ne, Hcode by done. reflexivity. }
  split; [exact E |].
  rewrite E. cbn [snd]. intros Heq.
  apply (f_equal (fun r => body_dict (body r) !! "error")) in Heq.
  rewrite Hb in Heq. cbn [body set_body body_dict] in Heq.
  rewrite lookup_delete_eq, Herr in Heq. discriminate Heq.
Qed.

Lemma health_missing_code_witness :
  fst (handler_of Health uncoded) = Raise (KeyError "code")
  /\ body (snd (handler_of Health uncoded))
     = PDict (delete "error" (body_dict (body uncoded))).
Proof.
  pose proof (health_missing_code uncoded (body_dict (body uncoded))
                (PBool false) eq_refl eq_refl eq_refl eq_refl) as [E _].
  rewrite E. split; reflexivity.
Defined.

(** X6: on a success response whose body is not a mapping, the handler of
    [health] raises [TypeError] when the body is a list and
    [AttributeError] otherwise, and leaves the response alone. *)
Theorem health_body_not_mapping (resp : Response) :
  is_success resp = true ->
  (forall m, body resp <> PDict m) ->
  handler_of Health resp
  = (Raise (match body resp with
            | PList _ => TypeError
            | _ => AttributeError
            end), resp).
Proof.
  intros Hs Hb. unfold_handlers. rewrite Hs. unfold body_pop.
  destruct (body resp) as [| | | | | |m]; try reflexivity.
  destruct (Hb m eq_refl).
Qed.

Lemma health_body_not_mapping_witness :
  handler_of Health listing = (Raise TypeError, listing).
Proof.
  apply (health_body_not_mapping listing); [reflexivity |].
  intros m Hm. discriminate Hm.
Defined.

Lemma health_returns_inv request resp v resp' :
  Cluster.health_response_handler request resp = (Return v, resp') ->
  is_success resp = true
  /\ exists m x y,
       body resp = PDict m
       /\ m !! "error" = Some x
       /\ m !! "code" = Some y.
Proof.
  unfold_handlers. destruct (is_success resp); [| discriminate].
  unfold body_pop.
  destruct (body resp) as [| | | | | |m]; try discriminate.
  destruct (m !! "error") as [x|] eqn:Herr; [| discriminate].
  cbn [body set_body].
  destruct (delete "error" m !! "code") as [y|] eqn:Hcode; [| discriminate].
  intros _. split; [reflexivity |].
  exists m, x, y. rewrite lookup_delete_ne in Hcode by done. done.
Qed.

(** X7: the handler of [health] returns a value exactly when the response
    is a success whose body is a mapping with both ['error'] and ['code'];
    the value is then that mapping without the two keys, and it is the
    body the response object is left with. *)
Theorem health_returns_iff (resp resp' : Response) (v : PyVal) :
  handler_of Health resp = (Return v, resp')
  <-> (is_success resp = true
       /\ exists m,
            body resp = PDict m
            /\ is_Some (m !! "error")
            /\ is_Some (m !! "code")
            /\ v = PDict (delete "code" (delete "error" m))
            /\ resp' = set_body v resp).
Proof.
  change (handler_of Health)
    with (Cluster.health_response_handler Cluster.health_request).
  split.
  - intros E.
    destruct (health_returns_inv _ _ _ _ E) as (Hs & m & x & y & Hb & Hx & Hy).
    split; [exact Hs |]. exists m.
    rewrite (health_success _ resp m x y Hs Hb Hx Hy) in E.
    injection E as <- <-. eauto 6.
  - intros (Hs & m & Hb & [x Hx] & [y Hy] & -> & ->).
    apply (health_success _ resp m x y Hs Hb Hx Hy).
Qed.

(** X8: the handler of [health] cannot be run twice on one response
    object: once it has returned, a second run on the object it left
    raises [KeyError] for ['error'] and changes nothing more. *)
Theorem health_second_run_fails (resp resp' : Response) (v : PyVal) :
  handler_of Health resp = (Return v, resp') ->
  handler_of Health resp' = (Raise (KeyError "error"), resp').
Proof.
  change (handler_of Health)
    with (Cluster.health_response_handler Cluster.health_request).
  intros E.
  destruct (health_returns_inv _ _ _ _ E) as (Hs & m & x & y & Hb & Hx & Hy).
  rewrite (health_success _ resp m x y Hs Hb Hx Hy) in E.
  injection E as <- <-.
  unfold_handlers. cbn [is_success set_body]. rewrite Hs.
  unfold body_pop. cbn [body set_body].
  rewrite lookup_delete_ne, lookup_delete_eq by done. reflexivity.
Qed.

Lemma health_second_run_fails_witness :
  handler_of Health (snd (handler_of Health healthy))
  = (Raise (KeyError "error"), snd (handler_of Health healthy)).
Proof.
  apply (health_second_run_fails healthy _
           (PDict (delete "code" (delete "error" (body_dict (body healthy)))))).
  reflexivity.
Defined.

Lemma health_returns_iff_witness :
  is_success healthy = true
  /\ exists m,
       body healthy = PDict m
       /\ is_Some (m !! "error")
       /\ is_Some (m !! "code")
       /\ PDict {[ "Node1" := PDict ∅ ]}
          = PDict (delete "code" (delete "error" m))
       /\ snd (handler_of Health healthy)
          = set_body (PDict {[ "Node1" := PDict ∅ ]}) healthy.
Proof.
  apply (proj1 (health_returns_iff healthy (snd (handler_of Health healthy))
                  (PDict {[ "Node1" := PDict ∅ ]}))).
  reflexivity.
Defined.

(** ** endpoints *)

Lemma comprehension_endpoint_inv items out :
  comprehension (fun item => py_getitem item "endpoint") items = Return out ->
  Forall2 (fun item ep =>
             exists d, item = PDict d /\ d !! "endpoint" = Some ep)
    items out.
Proof.
  revert out. induction items as [|item rest IH]; intros out; cbn.
  - intros [= <-]. constructor.
  - destruct (py_getitem item "endpoint") as [ep|e] eqn:Hitem;
      [| discriminate].
    destruct (comprehension _ rest) as [eps|e]; [| discriminate].
    intros [= <-]. constructor; [| apply IH; reflexivity].
    unfold py_getitem in Hitem.
    destruct item as [| | | | | |d]; try discriminate Hitem.
    destruct (d !! "endpoint") as [ep'|] eqn:Hd; [| discriminate Hitem].
    injection Hitem as ->. eauto.
Qed.

Lemma comprehension_app_raise f good bad rest out e :
  comprehension f good = Return out ->
  f bad = Raise e ->
  comprehension f (good ++ bad :: rest) = Raise e.
Proof.
  revert out. induction good as [|item good IH]; intros out; cbn.
  - intros _ ->. reflexivity.
  - destruct (f item) as [x|e']; [| discriminate].
    destruct (comprehension f good) as [xs|e'] eqn:Hgood; [| discriminate].
    intros _ Hbad. rewrite (IH xs eq_refl Hbad). reflexivity.
Qed.

(** X9: when the handler of [endpoints] returns on a response whose body
    maps ['endpoints'] to a list, the value is a list with one entry per
    item of that list, in the same order: every item is a mapping and the
    entry is what it holds under ['endpoint']. *)
Theorem endpoints_result_matches_items
    (resp : Response) (m : gmap string PyVal) (items : list PyVal)
    (v : PyVal) :
  body resp = PDict m ->
  m !! "endpoints" = Some (PList items) ->
  fst (handler_of Endpoints resp) = Return v ->
  exists eps,
    v = PList eps
    /\ length eps = length items
    /\ Forall2 (fun item ep =>
                  exists d, item = PDict d /\ d !! "endpoint" = Some ep)
         items eps.
Proof.
  intros Hb Hm. unfold_handlers.
  destruct (is_success resp); [| discriminate].
  unfold py_getitem at 1. rewrite Hb, Hm. cbn [py_iter].
  destruct (comprehension _ items) as [out|e] eqn:Hout; [| discriminate].
  cbn [fst]. intros [= <-]. exists out.
  apply comprehension_endpoint_inv in Hout.
  split; [reflexivity |]. split; [| exact Hout].
  symmetry. exact (Forall2_length _ _ _ Hout).
Qed.

Lemma endpoints_result_matches_items_witness :
  exists eps,
    PList [PStr "tcp://a:1"; PStr "tcp://b:2"] = PList eps
    /\ length eps = 2
    /\ Forall2 (fun item ep =>
                  exists d, item = PDict d /\ d !! "endpoint" = Some ep)
         [ PDict {[ "endpoint" := PStr "tcp://a:1" ]};
           PDict {[ "endpoint" := PStr "tcp://b:2" ]} ] eps.
Proof.
  apply (endpoints_result_matches_items two_coordinators
           (body_dict (body two_coordinators))
           [ PDict {[ "endpoint" := PStr "tcp://a:1" ]};
             PDict {[ "endpoint" := PStr "tcp://b:2" ]} ]);
    reflexivity.
Defined.

(** X10: on a success response whose ['endpoints'] list has a first item
    that cannot be indexed by ['endpoint'] (not a mapping, or a mapping
    without that key), the handler of [endpoints] raises the exception of
    that item, whatever follows it in the list, and returns no partial
    list. *)
Theorem endpoints_first_bad_item
    (resp : Response) (m : gmap string PyVal)
    (good : list (gmap string PyVal)) (eps : list PyVal)
    (bad : PyVal) (rest : list PyVal) (e : Exn) :
  is_success resp = true ->
  body resp = PDict m ->
  m !! "endpoints" = Some (PList ((PDict <$> good) ++ bad :: rest)) ->
  Forall2 (fun item ep => item !! "endpoint" = Some ep) good eps ->
  py_getitem bad "endpoint" = Raise e ->
  handler_of Endpoints resp = (Raise e, resp)
  /\ (e = TypeError \/ e = KeyError "endpoint").
Proof.
  intros Hs Hb Hm Hgood Hbad. split.
  - unfold_handlers. rewrite Hs.
    unfold py_getitem at 1. rewrite Hb, Hm. cbn [py_iter].
    rewrite (comprehension_app_raise _ (PDict <$> good) bad rest eps e
               (comprehension_endpoint good eps Hgood) Hbad).
    reflexivity.
  - unfold py_getitem in Hbad.
    destruct bad as [| | | | | |d]; try (injection Hbad as <-; by left).
    destruct (d !! "endpoint"); [discriminate Hbad |].
    injection Hbad as <-. by right.
Qed.

Lemma endpoints_first_bad_item_witness :
  handler_of Endpoints one_nameless
  = (Raise (KeyError "endpoint"), one_nameless).
Proof.
  apply (endpoints_first_bad_item one_nameless
           (body_dict (body one_nameless))
           [ {[ "endpoint" := PStr "tcp://a:1" ]} ]
           [ PStr "tcp://a:1" ]
           (PDict {[ "address" := PStr "tcp://b:2" ]})
           [ PDict {[ "endpoint" := PStr "tcp://c:3" ]} ]
           (KeyError "endpoint"));
    try reflexivity.
  repeat constructor.
Defined.

Lemma comprehension_strings (keys : list string) :
  comprehension (fun item => py_getitem item "endpoint") (PStr <$> keys)
  = match keys with
    | [] => Return []
    | _ :: _ => Raise TypeError
    end.
Proof. destruct keys; reflexivity. Qed.

Lemma chars_strings s :
  exists keys, chars s = PStr <$> keys /\ (keys = [] <-> s = "").
Proof.
  induction s as [|c s (keys & IH & _)].
  - exists []. done.
  - exists (String c EmptyString :: keys). cbn. rewrite IH.
    split; [reflexivity |]. split; discriminate.
Qed.

(** X11: the handler of [endpoints] iterates over whatever ['endpoints']
    holds.  When that is a string or a mapping instead of a list, the empty
    one gives the empty list of endpoints, and a non-empty one raises
    [TypeError] (its characters, or its keys, are strings and cannot be
    indexed by ['endpoint']). *)
Theorem endpoints_of_string_or_mapping
    (resp : Response) (m : gmap string PyVal) :
  is_success resp = true ->
  body resp = PDict m ->
  (forall s,
     m !! "endpoints" = Some (PStr s) ->
     handler_of Endpoints resp
     = (if decide (s = "") then Return (PList []) else Raise TypeError,
        resp))
  /\ (forall d : gmap string PyVal,
        m !! "endpoints" = Some (PDict d) ->
        handler_of Endpoints resp
        = (if decide (d = ∅) then Return (PList []) else Raise TypeError,
           resp)).
Proof.
  intros Hs Hb. split.
  - intros s Hm. unfold_handlers. rewrite Hs.
    unfold py_getitem at 1. rewrite Hb, Hm. cbn [py_iter].
    destruct (chars_strings s) as (keys & -> & Hkeys).
    rewrite comprehension_strings.
    destruct keys as [|k keys]; case_decide as Hd; try reflexivity.
    + destruct Hd. apply Hkeys. reflexivity.
    + apply Hkeys in Hd. discriminate Hd.
  - intros d Hm. unfold_handlers. rewrite Hs.
    unfold py_getitem at 1. rewrite Hb, Hm. cbn [py_iter].
    rewrite comprehension_strings.
    destruct ((map_to_list d).*1) as [|k keys] eqn:Hkeys;
      case_decide as Hd; try reflexivity.
    + destruct Hd. apply map_to_list_empty_iff.
      destruct (map_to_list d); [reflexivity | discriminate Hkeys].
    + rewrite Hd, map_to_list_empty in Hkeys. discriminate Hkeys.
Qed.

Lemma endpoints_of_string_or_mapping_witness :
  handler_of Endpoints blank_endpoints = (Return (PList []), blank_endpoints).
Proof.
  exact (proj1 (endpoints_of_string_or_mapping blank_endpoints
                  (body_dict (body blank_endpoints)) eq_refl eq_refl)
           "" eq_refl).
Defined.

(** X12: on a success response whose body is a mapping without
    ['endpoints'], the handler of [endpoints] raises [KeyError] for
    ['endpoints']; when the entry is [None], a boolean or a number it
    raises [TypeError]; the response is left alone. *)
Theorem endpoints_missing_or_not_iterable
    (resp : Response) (m : gmap string PyVal) :
  is_success resp = true ->
  body resp = PDict m ->
  (m !! "endpoints" = None ->
   handler_of Endpoints resp = (Raise (KeyError "endpoints"), resp))
  /\ (forall x,
        m !! "endpoints" = Some x ->
        (x = PNone \/ (exists b, x = PBool b) \/ (exists z, x = PInt z)
         \/ (exists bits, x = PFloat bits)) ->
        handler_of Endpoints resp = (Raise TypeError, resp)).
Proof.
  intros Hs Hb. split.
  - intros Hm. unfold_handlers. rewrite Hs.
    unfold py_getitem at 1. rewrite Hb, Hm. reflexivity.
  - intros x Hm Hx. unfold_handlers. rewrite Hs.
    unfold py_getitem at 1. rewrite Hb, Hm.
    destruct Hx as [-> | [[b ->] | [[z ->] | [bits ->]]]]; reflexivity.
Qed.

Lemma endpoints_missing_or_not_iterable_witness :
  handler_of Endpoints node_1 = (Raise (KeyError "endpoints"), node_1).
Proof.
  exact (proj1 (endpoints_missing_or_not_iterable node_1
                  (body_dict (body node_1)) eq_refl eq_refl)
           eq_refl).
Defined.

(** ** Requests *)

Lemma string_length_app (s t : string) :
  String.length (s ++ t) = String.length s + String.length t.
Proof.
  induction s as [|c s IH]; [reflexivity |].
  change (String c s ++ t) with (String c (s ++ t)).
  cbn [String.length]. rewrite IH. reflexivity.
Qed.

Lemma string_app_inv_tail (s1 s2 t : string) :
  s1 ++ t = s2 ++ t -> s1 = s2.
Proof.
  revert s2. induction s1 as [|c s1 IH]; intros [|c' s2]; intros H.
  - reflexivity.
  - apply (f_equal String.length) in H.
    change (String c' s2 ++ t) with (String c' (s2 ++ t)) in H.
    cbn [String.length] in H. rewrite !string_length_app in H.
    cbn [String.length] in H. lia.
  - apply (f_equal String.length) in H.
    change (String c s1 ++ t) with (String c (s1 ++ t)) in H.
    cbn [String.length] in H. rewrite !string_length_app in H.
    cbn [String.length] in H. lia.
  - injection H as -> H. by rewrite (IH s2 H).
Qed.

Lemma format_quoted_inj (mode mode' : string) :
  format_quoted mode = format_quoted mode' -> mode = mode'.
Proof.
  unfold format_quoted. intros [= H]. exact (string_app_inv_tail _ _ _ H).
Qed.

Lemma server_id_param_inj (s s' : string) :
  Some ({[ "ServerID" := PStr s ]} : gmap string PyVal)
  = Some {[ "ServerID" := PStr s' ]} ->
  s = s'.
Proof.
  intros H. apply (f_equal (fun o => o ≫= lookup "ServerID")) in H.
  cbn [mbind option_bind] in H. rewrite !lookup_singleton_eq in H.
  congruence.
Qed.

(** X13: the body [toggle_maintenance_mode] sends is two characters longer
    than the mode it was given, and it determines the mode: two calls send
    the same request only when they were given the same mode. *)
Theorem toggle_body_encodes_mode (mode mode' : string) :
  (String.length <$> data_string (Cluster.toggle_maintenance_mode_request mode))
  = Some (String.length mode + 2)
  /\ (Cluster.toggle_maintenance_mode_request mode
      = Cluster.toggle_maintenance_mode_request mode' ->
      mode = mode').
Proof.
  split.
  - cbn. rewrite string_length_app. cbn. f_equal. lia.
  - intros H. apply (f_equal data_string) in H.
    change (Some (format_quoted mode) = Some (format_quoted mode')) in H.
    apply format_quoted_inj. congruence.
Qed.

Lemma toggle_body_encodes_mode_witness :
  (String.length
     <$> data_string (Cluster.toggle_maintenance_mode_request "off"))
  = Some 5
  /\ "off" = "off".
Proof.
  destruct (toggle_body_encodes_mode "off" "off") as [Hlen Hinj].
  split; [exact Hlen | exact (Hinj eq_refl)].
Defined.

(** X14: the request tells the call: two Cluster calls (a method with its
    argument) build the same request only when they are the same method
    called with the same argument. *)
Theorem request_of_inj (op op' : Operation) :
  request_of op = request_of op' -> op = op'.
Proof.
  intros H.
  destruct op, op'; try reflexivity; try discriminate H;
    try (apply (f_equal params) in H; apply server_id_param_inj in H;
         by rewrite H).
  apply (f_equal data_string) in H.
  change (Some (format_quoted mode) = Some (format_quoted mode0)) in H.
  f_equal. apply format_quoted_inj. congruence.
Qed.

Lemma request_of_inj_witness :
  ServerVersion "PRMR-0001" = ServerVersion "PRMR-0001".
Proof.
  apply (request_of_inj (ServerVersion "PRMR-0001")
           (ServerVersion "PRMR-0001")).
  reflexivity.
Defined.

(** X15: [toggle_maintenance_mode] is the only method that sends a body and
    the only one that is not a GET; the three node queries are the only
    ones that send query parameters. *)
Theorem request_shapes (op : Operation) :
  (data (request_of op) <> None <-> exists mode, op = ToggleMaintenanceMode mode)
  /\ (http_method (method (request_of op))
      = Some (match data (request_of op) with
              | Some _ => PUT
              | None => GET
              end))
  /\ (params (request_of op) <> None
      <-> exists sid, op = ServerVersion sid \/ op = ServerEngine sid
                      \/ op = ServerStatistics sid).
Proof.
  destruct op; cbn; (split; [| split]); try reflexivity;
    split; try (intros H; by destruct H);
    try (intros [? H]; discriminate H);
    try (intros [? [H | [H | H]]]; discriminate H);
    intros _; eauto.
Qed.

Lemma request_shapes_witness :
  exists mode, ToggleMaintenanceMode "on" = ToggleMaintenanceMode mode.
Proof.
  apply (proj1 (request_shapes (ToggleMaintenanceMode "on"))).
  discriminate.
Defined.

(** ** What a success outcome depends on *)

(** X16: on success responses the outcome of a handler is decided by the
    body alone: two success responses with equal bodies give the same
    outcome for every operation, whatever their status codes and headers. *)
Theorem success_outcome_from_body (op : Operation) (resp1 resp2 : Response) :
  is_success resp1 = true ->
  is_success resp2 = true ->
  body resp1 = body resp2 ->
  fst (handler_of op resp1) = fst (handler_of op resp2).
Proof.
  intros Hs1 Hs2 Hb.
  destruct op; unfold_handlers; rewrite Hs1, Hs2; cbn [fst];
    try (rewrite Hb; reflexivity).
  - unfold body_pop. rewrite Hb.
    destruct (body resp2) as [| | | | | |m]; try reflexivity.
    destruct (m !! "error"); [| reflexivity].
    cbn [body set_body].
    destruct (delete "error" m !! "code"); reflexivity.
  - rewrite Hb.
    destruct (py_getitem (body resp2) "endpoints") as [seq|]; [| reflexivity].
    destruct (py_iter seq) as [items|]; [| reflexivity].
    destruct (comprehension _ items); reflexivity.
Qed.

Lemma success_outcome_from_body_witness :
  fst (handler_of Health (mkResponse 203 true (body healthy) ∅))
  = fst (handler_of Health healthy).
Proof.
  apply (success_outcome_from_body Health
           (mkResponse 203 true (body healthy) ∅) healthy);
    reflexivity.
Defined.

(** X17: a handler uses the request it closes over only to build its typed
    error: on a success response each of the eight handlers does the same,
    to the outcome and to the response, whichever request it was built
    with. *)
Theorem success_ignores_request (request request' : Request)
    (resp : Response) :
  is_success resp = true ->
  Forall (fun handler : Request -> Handler =>
            handler request resp = handler request' resp)
    [ Cluster.server_id_response_handler;
      Cluster.server_role_response_handler;
      Cluster.server_version_response_handler;
      Cluster.server_engine_response_handler;
      Cluster.server_statistics_response_handler;
      Cluster.health_response_handler;
      Cluster.toggle_maintenance_mode_response_handler;
      Cluster.endpoints_response_handler ].
Proof.
  intros Hs.
  repeat (constructor; [unfold_handlers; rewrite Hs; reflexivity |]).
  constructor.
Qed.

Lemma success_ignores_request_witness :
  Cluster.health_response_handler Cluster.health_request healthy
  = Cluster.health_response_handler Cluster.endpoints_request healthy.
Proof.
  pose proof (success_ignores_request Cluster.health_request
                Cluster.endpoints_request healthy eq_refl) as H.
  exact (Forall_lookup_1 _ _ 5 _ H eq_refl).
Defined.
